(** * The Details panel of the DAG view (airflow/www/static/js/dag/details/index.tsx)

    A shallow embedding of the pure logic of the [Details] component: the two
    tab mappings [tabToIndex] and [indexToTab], the flags derived from the
    current selection, the tab-change handler that rewrites the [tab] query
    parameter, the redirect effect, the choice and normalisation of the
    task instance handed to the Logs viewer and to the mark-as control, and
    the render tree as lists: the header controls, the tab strip, the panels
    and the content of the Details panel.

    Conventions.
    - A JavaScript value that the component only tests for truthiness or
      compares with [===] is a [JS.value]; [&&], [||] and [!] are the
      operators of the language, which return one of their operands.
    - [string | null] and [T | undefined] are [option]; [JS.ofString],
      [JS.ofNumber] and [JS.ofBool] inject them back into [JS.value].
    - A [number] is an integer ([Z]): tab indexes and map indexes are.
    - A property read that throws on [undefined] returns [JS.TypeError];
      optional chaining ([?.]) is written out as a [match]. *)

From Stdlib Require Import ZArith String List Bool Lia.
Import ListNotations.

Local Open Scope Z_scope.
Local Open Scope string_scope.

(** ** JavaScript values *)

Module JS.

Inductive value : Type :=
| Undefined
| Null
| Boolean (b : bool)
| Str (s : string)
| Num (n : Z).

(** ToBoolean: [undefined], [null], [false], the empty string and 0 are
    falsy, everything else is truthy. *)
Definition truthy (v : value) : bool :=
  match v with
  | Undefined | Null => false
  | Boolean b => b
  | Str s => negb (s =? "")
  | Num n => negb (n =? 0)%Z
  end.

(** [a && b] *)
Definition and (a b : value) : value := if truthy a then b else a.

(** [a || b] *)
Definition or (a b : value) : value := if truthy a then a else b.

(** [!a] *)
Definition not (a : value) : value := Boolean (negb (truthy a)).

(** [!!a] *)
Definition notnot (a : value) : bool := truthy a.

(** [a === b] *)
Definition strictEq (a b : value) : bool :=
  match a, b with
  | Undefined, Undefined => true
  | Null, Null => true
  | Boolean x, Boolean y => Bool.eqb x y
  | Str x, Str y => (x =? y)
  | Num x, Num y => (x =? y)%Z
  | _, _ => false
  end.

(** [string | null] *)
Definition ofString (s : option string) : value :=
  match s with Some s => Str s | None => Null end.

(** [number | undefined] *)
Definition ofNumber (n : option Z) : value :=
  match n with Some n => Num n | None => Undefined end.

(** [boolean | undefined] *)
Definition ofBool (b : option bool) : value :=
  match b with Some b => Boolean b | None => Undefined end.

(** The outcome of an expression that may throw. *)
Inductive result (A : Type) : Type :=
| Ok (a : A)
| TypeError.
Arguments Ok {A} a.
Arguments TypeError {A}.

End JS.

Infix "&&&" := JS.and (at level 40, left associativity).
Infix "|||" := JS.or (at level 50, left associativity).
Notation "'!' a" := (JS.not a) (at level 35, right associativity).
Infix "===" := JS.strictEq (at level 70, no associativity).

(** ** Tab mappings *)

(** [tabToIndex]: a [switch] over the tab name; [undefined] matches no
    [case] and falls to [default]. *)
Definition tabToIndex (tab : option string) : Z :=
  match tab with
  | None => 0
  | Some tab =>
      if tab =? "graph" then 1
      else if tab =? "gantt" then 2
      else if tab =? "code" then 3
      else if tab =? "logs" then 4
      else if tab =? "mapped_tasks" then 4
      else if tab =? "xcom" then 5
      else if tab =? "details" then 0
      else 0
  end.

(** [indexToTab]: the result is a tab name or [undefined]. *)
Definition indexToTab (index : Z) (isTaskInstance isMappedTaskSummary : bool)
  : option string :=
  match index with
  | 1 => Some "graph"
  | 2 => Some "gantt"
  | 3 => Some "code"
  | 4 =>
      if isMappedTaskSummary then Some "mapped_tasks"
      else if isTaskInstance then Some "logs"
      else None
  | 5 => if isTaskInstance then Some "xcom" else None
  | 0 => None
  | _ => None
  end.

Definition TAB_PARAM : string := "tab".

(** The names [tabToIndex] has a [case] for, ["details"] apart. *)
Definition tabNames : list string :=
  ["graph"; "gantt"; "code"; "logs"; "mapped_tasks"; "xcom"].

(** ** Data read by the component *)

(** A task instance, as far as the component reads it.  [state] is
    [TaskState | null | undefined]; the component only tests it for
    truthiness and against ["none"], so both absent forms are [None]. *)
Module TaskInstance.
Record t : Type := mk {
  runId : string;
  state : option string;
  tryNumber : option Z
}.
End TaskInstance.

(** A node of the task tree: [children?: Task[]], [isMapped?: boolean],
    [instances: TaskInstance[]]. *)
Module Task.
#[warnings="-register-all"]
Inductive t : Type := mk {
  children : option (list t);
  isMapped : option bool;
  instances : list TaskInstance.t
}.
End Task.

(** ** Query parameters

    [URLSearchParams] of the URL standard: an ordered list of name-value
    pairs in which a name may occur more than once. *)
Module URLSearchParams.

Definition t : Type := list (string * string).

(** [get(name)]: the value of the first pair named [name], or [null]. *)
Fixpoint get (name : string) (p : t) : option string :=
  match p with
  | [] => None
  | (k, v) :: q => if k =? name then Some v else get name q
  end.

(** [delete(name)]: removes every pair named [name]. *)
Fixpoint delete (name : string) (p : t) : t :=
  match p with
  | [] => []
  | (k, v) :: q => if k =? name then delete name q else (k, v) :: delete name q
  end.

(** [set(name, value)]: overwrites the first pair named [name] and removes
    the others; appends the pair when there is none. *)
Fixpoint set (name value : string) (p : t) : t :=
  match p with
  | [] => [(name, value)]
  | (k, v) :: q =>
      if k =? name then (k, value) :: delete name q
      else (k, v) :: set name value q
  end.

(** The pairs whose name is not [name], in order. *)
Definition others (name : string) (p : t) : t :=
  filter (fun kv => negb (fst kv =? name)) p.

(** [getAll(name)] *)
Definition getAll (name : string) (p : t) : list string :=
  map snd (filter (fun kv => fst kv =? name) p).

End URLSearchParams.

(** Modelled from the spec: the constructor of [URLSearchParamsWrapper]
    (src/utils/URLSearchParamWrapper), a subclass of [URLSearchParams] that
    is built from the current parameters.  The handler leaves "all other query
    parameters untouched", so the new object starts as a copy of its
    argument; [set] and [delete] are the inherited ones. *)
Definition URLSearchParamsWrapper (init : URLSearchParams.t) : URLSearchParams.t :=
  init.

(** ** The component *)

Section Details.

(** [const { selected: { runId, taskId, mapIndex } } = useSelection();] *)
Variables runId taskId : option string.
Variable mapIndex : option Z.

(** [const group = getTask({ taskId, task: groups });] the node found for
    [taskId], if any. *)
Variable group : option Task.t.

(** [const { data: mappedTaskInstance } = useTaskInstance({...});] *)
Variable mappedTaskInstance : option TaskInstance.t.

Definition isDag : JS.value :=
  ! JS.ofString runId &&& ! JS.ofString taskId.

Definition isDagRun : JS.value :=
  JS.ofString runId &&& ! JS.ofString taskId.

(** [group?.children] *)
Definition children : option (list Task.t) :=
  match group with Some g => Task.children g | None => None end.

(** [group?.isMapped] *)
Definition isMapped : option bool :=
  match group with Some g => Task.isMapped g | None => None end.

(** [!!children]: an array, even an empty one, is truthy. *)
Definition isGroup : bool :=
  match children with Some _ => true | None => false end.

Definition isMappedTaskSummary : bool :=
  JS.notnot
    (JS.ofString taskId &&&
     JS.ofString runId &&&
     ! JS.Boolean isGroup &&&
     JS.ofBool isMapped &&&
     JS.Boolean (JS.ofNumber mapIndex === JS.Undefined)).

Definition isTaskInstance : bool :=
  JS.notnot
    (JS.ofString taskId &&&
     JS.ofString runId &&&
     ! JS.Boolean isGroup &&&
     ! JS.Boolean isMappedTaskSummary).

Definition showTaskDetails : JS.value :=
  JS.Boolean (JS.notnot (JS.ofString taskId)) &&& ! JS.ofString runId.

(** [searchParams.get(TAB_PARAM) || undefined] *)
Definition tab (searchParams : URLSearchParams.t) : option string :=
  match URLSearchParams.get TAB_PARAM searchParams with
  | Some s => if JS.truthy (JS.Str s) then Some s else None
  | None => None
  end.

Definition tabIndex (searchParams : URLSearchParams.t) : Z :=
  tabToIndex (tab searchParams).

(** [onChangeTab]: the result is the object given to [setSearchParams],
    that is, the query parameters after the call. *)
Definition onChangeTab (searchParams : URLSearchParams.t) (index : Z)
  : URLSearchParams.t :=
  let params := URLSearchParamsWrapper searchParams in
  let newTab := indexToTab index isTaskInstance isMappedTaskSummary in
  match newTab with
  | Some name =>
      if JS.truthy (JS.Str name)
      then URLSearchParams.set TAB_PARAM name params
      else URLSearchParams.delete TAB_PARAM params
  | None => URLSearchParams.delete TAB_PARAM params
  end.

Definition tabCount : Z :=
  if JS.truthy (JS.ofString runId &&& JS.ofString taskId &&& ! JS.Boolean isGroup)
  then 5 else 4.

(** The body of the effect: the index it calls [onChangeTab] with, or
    [None] when it makes no call. *)
Definition effectCall (tabIndex : Z) : option Z :=
  if (tabCount =? 4)%Z && (tabIndex >? 3)%Z then
    if JS.truthy (! JS.ofString runId &&& JS.ofString taskId)
    then Some 0
    else Some 1
  else None.

(** The effect run on the current query parameters. *)
Definition useEffect (searchParams : URLSearchParams.t) : URLSearchParams.t :=
  match effectCall (tabIndex searchParams) with
  | Some index => onChangeTab searchParams index
  | None => searchParams
  end.

(** [enabled: mapIndex !== undefined] *)
Definition enabled : bool :=
  negb (JS.ofNumber mapIndex === JS.Undefined).

(** [mapIndex > -1]; [undefined] converts to NaN, which compares false. *)
Definition mapIndexGt (bound : Z) : bool :=
  match mapIndex with Some n => (n >? bound)%Z | None => false end.

(** [group?.instances.find((ti) => ti.runId === runId)] *)
Definition groupInstance : option TaskInstance.t :=
  match group with
  | Some g =>
      find (fun ti => JS.Str (TaskInstance.runId ti) === JS.ofString runId)
           (Task.instances g)
  | None => None
  end.

Definition instance : option TaskInstance.t :=
  if negb (JS.ofNumber mapIndex === JS.Undefined) && mapIndexGt (-1)
  then mappedTaskInstance
  else groupInstance.

(** [instance?.state] *)
Definition instanceState : JS.value :=
  match instance with
  | Some i => JS.ofString (TaskInstance.state i)
  | None => JS.Undefined
  end.

(** [instance.state]: throws when [instance] is [undefined]. *)
Definition instanceDotState : JS.result (option string) :=
  match instance with
  | Some i => JS.Ok (TaskInstance.state i)
  | None => JS.TypeError
  end.

(** [instance?.tryNumber] *)
Definition instanceTryNumber : option Z :=
  match instance with
  | Some i => TaskInstance.tryNumber i
  | None => None
  end.

(** The [state] prop of [<MarkInstanceAs>]:
    [!instance?.state || instance?.state === "none" ? undefined : instance.state] *)
Definition MarkInstanceAs_state : JS.result (option string) :=
  if JS.truthy (! instanceState ||| JS.Boolean (instanceState === JS.Str "none"))
  then JS.Ok None
  else instanceDotState.

(** The [state] prop of [<Logs>], the same expression. *)
Definition Logs_state : JS.result (option string) :=
  if JS.truthy (! instanceState ||| JS.Boolean (instanceState === JS.Str "none"))
  then JS.Ok None
  else instanceDotState.

(** The [tryNumber] prop of [<Logs>] and of [<XcomCollection>]. *)
Definition Logs_tryNumber : option Z := instanceTryNumber.

End Details.

(** The five derived flags in the order the component computes them, each
    as the render tree tests it ([{flag && <Panel />}]): by truthiness. *)
Definition derivedFlags (runId taskId : option string) (mapIndex : option Z)
  (group : option Task.t) : list bool :=
  [ JS.truthy (isDag runId taskId);
    JS.truthy (isDagRun runId taskId);
    isMappedTaskSummary runId taskId mapIndex group;
    isTaskInstance runId taskId mapIndex group;
    JS.truthy (showTaskDetails runId taskId) ].

(** A run, a task is selected: [runId], [taskId] is truthy, the test every
    flag applies to it. *)
Definition selected (id : option string) : bool := JS.truthy (JS.ofString id).

(** ** Sample data *)

(** A mapped task that is not a group, with one instance in run "run_1". *)
Definition sampleInstance : TaskInstance.t :=
  TaskInstance.mk "run_1" (Some "success") (Some 1).

Definition sampleMappedTask : Task.t :=
  Task.mk None (Some true) [sampleInstance].

(** What the fetch of one mapped instance returned. *)
Definition sampleFetched : TaskInstance.t :=
  TaskInstance.mk "run_1" (Some "failed") (Some 3).

(** A task whose instance in run "run_1" carries the empty string as state. *)
Definition blankStateInstance : TaskInstance.t :=
  TaskInstance.mk "run_1" (Some "") (Some 1).

Definition blankStateTask : Task.t :=
  Task.mk None None [blankStateInstance].

(** The declared type of [state] is a union of state names, none of them
    empty, with [null] and [undefined]; its declaration is outside this
    file.  An instance of that type never carries the empty string. *)
Definition stateTyped (i : TaskInstance.t) : bool :=
  match TaskInstance.state i with
  | Some s => negb (s =? "")
  | None => true
  end.

(** The same of an instance that may be [undefined]. *)
Definition instanceTyped (i : option TaskInstance.t) : bool :=
  match i with
  | Some i => stateTyped i
  | None => true
  end.

(** A task whose instance in run "run_1" has the state "none". *)
Definition noneStateTask : Task.t :=
  Task.mk None None [TaskInstance.mk "run_1" (Some "none") (Some 1)].

(** Query parameters with a repeated [tab] among others. *)
Definition sampleParams : URLSearchParams.t :=
  [("dag_run_id", "run_1"); ("tab", "xcom"); ("task_id", "task_a"); ("tab", "logs")].

(** ** The render tree *)

(** A run of the grid data, as far as the component reads it. *)
Module DagRun.
Record t : Type := mk {
  runId : string;
  state : option string;
  executionDate : option string
}.
End DagRun.

(** The slots of the tab strip.  A [<Tab>] is named by its label; a
    [<TabPanel>] by the tab it is written for: the first panel is Details,
    then [<Graph>], [<Gantt>], [<DagCode>] for Code, [<Logs>],
    [<MappedInstances>] for Mapped Tasks and [<XcomCollection>] for XCom. *)
Module Tab.
Inductive t : Type :=
| Details
| Graph
| Gantt
| Code
| Logs
| MappedTasks
| XCom.
End Tab.

(** The components of the header row and of the Details panel. *)
Module Component.
Inductive t : Type :=
| ClearRun
| MarkRunAs
| ClearInstance
| MarkInstanceAs
| FilterTasks
| DagContent
| DagRunContent
| BackToTaskSummary
| TaskInstanceContent
| TaskDetails.
End Component.

(** [{cond && <X />}]: the elements are rendered when [cond] is truthy;
    [false], [null], [undefined] and the empty string render nothing. *)
Definition render {A : Type} (cond : JS.value) (elements : list A) : list A :=
  if JS.truthy cond then elements else [].

(** An object reference or [undefined] where only its truthiness is used:
    an object is truthy. *)
Definition defined {A : Type} (o : option A) : JS.value :=
  JS.Boolean (match o with Some _ => true | None => false end).

Section Render.

Variables runId taskId : option string.
Variable mapIndex : option Z.
Variable group : option Task.t.

(** [const { data: { dagRuns, groups } } = useGridData();] *)
Variable dagRuns : list DagRun.t.

(** [dagRuns.find((r) => r.runId === runId)] *)
Definition run : option DagRun.t :=
  find (fun r => JS.Str (DagRun.runId r) === JS.ofString runId) dagRuns.

(** The controls of the header row, in order. *)
Definition header : list Component.t :=
  render (JS.ofString runId &&& ! JS.ofString taskId)
    [Component.ClearRun; Component.MarkRunAs] ++
  render (JS.ofString runId &&& JS.ofString taskId)
    [Component.ClearInstance; Component.MarkInstanceAs] ++
  render (JS.ofString taskId &&& JS.ofString runId)
    [Component.FilterTasks].

(** The [<Tab>] children of [<TabList>], in order; the position of a tab
    is the index [<Tabs>] knows it by. *)
Definition tabList : list Tab.t :=
  [Tab.Details; Tab.Graph; Tab.Gantt; Tab.Code] ++
  render (JS.Boolean (isTaskInstance runId taskId mapIndex group)) [Tab.Logs] ++
  render (JS.Boolean (isMappedTaskSummary runId taskId mapIndex group))
    [Tab.MappedTasks] ++
  render (JS.Boolean (isTaskInstance runId taskId mapIndex group)) [Tab.XCom].

(** The "Task Duration" button that closes the tab strip: [!!taskId && !!runId]. *)
Definition taskDurationButton : bool :=
  JS.truthy (JS.Boolean (JS.notnot (JS.ofString taskId)) &&&
             JS.Boolean (JS.notnot (JS.ofString runId))).

(** The [<TabPanel>] children of [<TabPanels>], in order. *)
Definition tabPanels : list Tab.t :=
  [Tab.Details; Tab.Graph; Tab.Gantt; Tab.Code] ++
  render (JS.Boolean (isTaskInstance runId taskId mapIndex group) &&& defined run)
    [Tab.Logs] ++
  render (JS.Boolean (isMappedTaskSummary runId taskId mapIndex group))
    [Tab.MappedTasks] ++
  render (JS.Boolean (isTaskInstance runId taskId mapIndex group)) [Tab.XCom].

(** The content of the first panel, in order. *)
Definition detailsPanel : list Component.t :=
  render (isDag runId taskId) [Component.DagContent] ++
  render (isDagRun runId taskId) [Component.DagRunContent] ++
  render (JS.Boolean (JS.notnot (JS.ofString runId)) &&&
          JS.Boolean (JS.notnot (JS.ofString taskId)))
    [Component.BackToTaskSummary; Component.TaskInstanceContent] ++
  render (showTaskDetails runId taskId) [Component.TaskDetails].

End Render.

(** The number of tabs of the strip, as an index bound. *)
Definition tabListLength (runId taskId : option string) (mapIndex : option Z)
  (group : option Task.t) : Z :=
  Z.of_nat (length (tabList runId taskId mapIndex group)).

(** The name under which a tab goes into the URL, by its label; the
    Details tab has none. *)
Definition urlName (slot : Tab.t) : option string :=
  match slot with
  | Tab.Details => None
  | Tab.Graph => Some "graph"
  | Tab.Gantt => Some "gantt"
  | Tab.Code => Some "code"
  | Tab.Logs => Some "logs"
  | Tab.MappedTasks => Some "mapped_tasks"
  | Tab.XCom => Some "xcom"
  end.

(** The tab of the strip that a value of the [tab] parameter selects:
    the one at position [tabToIndex], if the strip is that long. *)
Definition selectedTab (runId taskId : option string) (mapIndex : option Z)
  (group : option Task.t) (tab : option string) : option Tab.t :=
  nth_error (tabList runId taskId mapIndex group) (Z.to_nat (tabToIndex tab)).

Definition sampleRun : DagRun.t :=
  DagRun.mk "run_1" (Some "success") (Some "2024-01-01T00:00:00+00:00").

(** ** Properties of the tab mappings *)

Lemma tabToIndex_range (tab : option string) : 0 <= tabToIndex tab <= 5.
Proof.
  destruct tab as [s |]; simpl; [| lia].
  repeat match goal with
         | |- context [if ?b then _ else _] => destruct b
         end; lia.
Qed.

Lemma tabToIndex_unrecognized (s : string) :
  ~ In s tabNames -> tabToIndex (Some s) = 0.
Proof.
  intros Hs. unfold tabToIndex.
  repeat match goal with
         | |- context [(s =? ?lit)] =>
             destruct (String.eqb_spec s lit) as [-> | ?];
             [ try (exfalso; apply Hs; simpl; tauto) | ]
         end; reflexivity.
Qed.

(** C1. [tabToIndex] is a total function into the indexes 0..5 that sends
    "graph" to 1, "gantt" to 2, "code" to 3, "logs" and "mapped_tasks" to 4,
    "xcom" to 5, and "details", an unset input and every other string to 0. *)
Theorem tabToIndex_table :
  tabToIndex (Some "graph") = 1 /\
  tabToIndex (Some "gantt") = 2 /\
  tabToIndex (Some "code") = 3 /\
  tabToIndex (Some "logs") = 4 /\
  tabToIndex (Some "mapped_tasks") = 4 /\
  tabToIndex (Some "xcom") = 5 /\
  tabToIndex (Some "details") = 0 /\
  tabToIndex None = 0 /\
  (forall s : string, ~ In s tabNames -> tabToIndex (Some s) = 0) /\
  (forall tab : option string, exists i : Z, tabToIndex tab = i /\ 0 <= i <= 5).
Proof.
  repeat (split; [reflexivity |]).
  split.
  - exact tabToIndex_unrecognized.
  - intros tab. exists (tabToIndex tab). split; [reflexivity | apply tabToIndex_range].
Qed.

(** C2. [indexToTab] by index, for every pair of flags: 1, 2, 3 give
    "graph", "gantt", "code"; 4 gives "mapped_tasks" under
    [isMappedTaskSummary], else "logs" under [isTaskInstance], else unset;
    5 gives "xcom" under [isTaskInstance], else unset; 0 and every other
    index give unset. *)
Theorem indexToTab_table (index : Z) (isTaskInstance isMappedTaskSummary : bool) :
  indexToTab index isTaskInstance isMappedTaskSummary =
    if (index =? 1)%Z then Some "graph"
    else if (index =? 2)%Z then Some "gantt"
    else if (index =? 3)%Z then Some "code"
    else if (index =? 4)%Z then
      (if isMappedTaskSummary then Some "mapped_tasks"
       else if isTaskInstance then Some "logs"
       else None)
    else if (index =? 5)%Z then
      (if isTaskInstance then Some "xcom" else None)
    else None.
Proof.
  destruct index as [| p | p]; try reflexivity.
  do 3 (destruct p as [p | p |]; try reflexivity).
Qed.

(** C4. On "graph", "gantt" and "code", [indexToTab] undoes [tabToIndex]
    whatever the two flags are. *)
Theorem indexToTab_tabToIndex (name : string) (flag1 flag2 : bool) :
  In name ["graph"; "gantt"; "code"] ->
  indexToTab (tabToIndex (Some name)) flag1 flag2 = Some name.
Proof.
  simpl. intros [<- | [<- | [<- | []]]]; reflexivity.
Qed.

Lemma indexToTab_tabToIndex_witness :
  In "gantt" ["graph"; "gantt"; "code"] /\
  indexToTab (tabToIndex (Some "gantt")) true false = Some "gantt".
Proof.
  split.
  - simpl. right. left. reflexivity.
  - apply (indexToTab_tabToIndex "gantt" true false). simpl. right. left. reflexivity.
Defined.

(** C9. Every tab name that [indexToTab] returns for an index is sent back
    to that index by [tabToIndex]. *)
Theorem tabToIndex_indexToTab (i : Z) (flag1 flag2 : bool) (t : string) :
  indexToTab i flag1 flag2 = Some t ->
  tabToIndex (Some t) = i.
Proof.
  intros H.
  destruct i as [| p | p]; simpl in H; try discriminate H.
  do 3 (try (destruct p as [p | p |]; simpl in H; try discriminate H));
    destruct flag1, flag2; try discriminate H;
    injection H as <-; reflexivity.
Qed.

Lemma tabToIndex_indexToTab_witness :
  indexToTab 4 true false = Some "logs" /\ tabToIndex (Some "logs") = 4.
Proof.
  split.
  - reflexivity.
  - apply (tabToIndex_indexToTab 4 true false "logs"). reflexivity.
Defined.

(** ** Properties of the derived flags *)

Local Ltac flags_unfold :=
  unfold derivedFlags, isDag, isDagRun, showTaskDetails, isTaskInstance,
    isMappedTaskSummary, isGroup, isMapped, children, selected,
    JS.notnot, JS.and, JS.not, JS.ofString, JS.ofBool, JS.ofNumber in *.

Local Ltac by_selection r t :=
  destruct r as [? |], t as [? |]; simpl;
  repeat match goal with
         | E : String.eqb ?s EmptyString = false
           |- context [String.eqb ?s EmptyString] => rewrite E; simpl
         | |- context [String.eqb ?s EmptyString] =>
             let E := fresh "E" in
             destruct (String.eqb_spec s EmptyString) as [-> | E];
             [| apply String.eqb_neq in E]; simpl
         end.

Local Ltac by_node group :=
  destruct group as [[[kids |] [[|] |] insts] |]; simpl.

(** C3. Exactly one of [isDag], [isDagRun], [isMappedTaskSummary],
    [isTaskInstance], [showTaskDetails] holds, except when a run and a task
    are both selected and the node is a group, where none holds; so no two
    of them ever hold together. *)
Theorem derivedFlags_partition (runId taskId : option string)
  (mapIndex : option Z) (group : option Task.t) :
  count_occ bool_dec (derivedFlags runId taskId mapIndex group) true =
    (if selected runId && selected taskId && isGroup group then 0%nat else 1%nat)
  /\ (count_occ bool_dec (derivedFlags runId taskId mapIndex group) true <= 1)%nat
  /\ (forall v : JS.value,
        In v [isDag runId taskId; isDagRun runId taskId; showTaskDetails runId taskId] ->
        JS.truthy v = true -> v = JS.Boolean true).
Proof.
  assert (H : count_occ bool_dec (derivedFlags runId taskId mapIndex group) true =
              (if selected runId && selected taskId && isGroup group
               then 0%nat else 1%nat)).
  { flags_unfold. by_selection runId taskId; by_node group;
      destruct mapIndex; reflexivity. }
  split; [exact H |]. split.
  - rewrite H. destruct (selected runId && selected taskId && isGroup group); lia.
  - clear H. flags_unfold. by_selection runId taskId;
      intros v [<- | [<- | [<- | []]]] Hv; try discriminate Hv; reflexivity.
Qed.

(** C7. With a run and a task selected on a mapped node that is not a
    group: without a map index the view is the mapped-task summary and not a
    task instance; with a map index it is a task instance and not the
    summary. *)
Theorem mapped_node_flags (runId taskId : option string) (group : option Task.t) :
  selected runId = true ->
  selected taskId = true ->
  isGroup group = false ->
  JS.truthy (JS.ofBool (isMapped group)) = true ->
  (isMappedTaskSummary runId taskId None group = true /\
   isTaskInstance runId taskId None group = false) /\
  (forall k : Z,
     isTaskInstance runId taskId (Some k) group = true /\
     isMappedTaskSummary runId taskId (Some k) group = false).
Proof.
  flags_unfold. by_selection runId taskId; by_node group;
    intros Hr Ht Hg Hm; try discriminate; repeat split.
Qed.

Lemma mapped_node_flags_witness :
  (isMappedTaskSummary (Some "run_1") (Some "task_a") None (Some sampleMappedTask) = true /\
   isTaskInstance (Some "run_1") (Some "task_a") None (Some sampleMappedTask) = false) /\
  (isTaskInstance (Some "run_1") (Some "task_a") (Some 2) (Some sampleMappedTask) = true /\
   isMappedTaskSummary (Some "run_1") (Some "task_a") (Some 2) (Some sampleMappedTask) = false).
Proof.
  destruct (mapped_node_flags (Some "run_1") (Some "task_a") (Some sampleMappedTask)
              eq_refl eq_refl eq_refl eq_refl) as [Hnone Hsome].
  split; [exact Hnone | exact (Hsome 2)].
Defined.

(** C10. With a run and a task selected on a node that is not a group and a
    map index that is defined but not above -1, the view is a task instance
    and the fetch is enabled, yet the instance shown (its state and try
    number) is the one found in the node's list for the run, whatever was
    fetched; the fetched instance is the one shown exactly when the map
    index is above -1. *)
Theorem negative_mapIndex_instance (runId taskId : option string) (k : Z)
  (group : option Task.t) (mappedTaskInstance : option TaskInstance.t) :
  selected runId = true ->
  selected taskId = true ->
  isGroup group = false ->
  k <= -1 ->
  isTaskInstance runId taskId (Some k) group = true /\
  enabled (Some k) = true /\
  instance runId (Some k) group mappedTaskInstance = groupInstance runId group /\
  instanceState runId (Some k) group mappedTaskInstance =
    match groupInstance runId group with
    | Some i => JS.ofString (TaskInstance.state i)
    | None => JS.Undefined
    end /\
  Logs_tryNumber runId (Some k) group mappedTaskInstance =
    match groupInstance runId group with
    | Some i => TaskInstance.tryNumber i
    | None => None
    end /\
  (forall (mapIndex : option Z) (fetched : option TaskInstance.t),
     instance runId mapIndex group fetched =
       match mapIndex with
       | Some n => if (-1 <? n)%Z then fetched else groupInstance runId group
       | None => groupInstance runId group
       end) /\
  (forall n : Z, enabled (Some n) = true).
Proof.
  intros Hr Ht Hg Hk.
  assert (Hins : forall (mapIndex : option Z) (fetched : option TaskInstance.t),
             instance runId mapIndex group fetched =
               match mapIndex with
               | Some n => if (-1 <? n)%Z then fetched else groupInstance runId group
               | None => groupInstance runId group
               end).
  { intros [n |] fetched; unfold instance, mapIndexGt; simpl; [| reflexivity].
    rewrite Z.gtb_ltb. reflexivity. }
  assert (Hlow : (-1 <? k)%Z = false) by (apply Z.ltb_ge; lia).
  assert (Hinst : instance runId (Some k) group mappedTaskInstance =
                  groupInstance runId group).
  { rewrite Hins, Hlow. reflexivity. }
  split.
  { clear Hins Hinst. flags_unfold. by_selection runId taskId; by_node group;
      try discriminate; reflexivity. }
  split; [reflexivity |].
  split; [exact Hinst |].
  unfold instanceState, Logs_tryNumber, instanceTryNumber. rewrite Hinst.
  repeat split; try reflexivity. exact Hins.
Qed.

Lemma negative_mapIndex_instance_witness :
  isTaskInstance (Some "run_1") (Some "task_a") (Some (-1)) (Some sampleMappedTask) = true /\
  enabled (Some (-1)) = true /\
  instance (Some "run_1") (Some (-1)) (Some sampleMappedTask) (Some sampleFetched) =
    Some sampleInstance.
Proof.
  destruct (negative_mapIndex_instance (Some "run_1") (Some "task_a") (-1)
              (Some sampleMappedTask) (Some sampleFetched)
              eq_refl eq_refl eq_refl ltac:(lia))
    as (Hti & Hen & Hinst & _).
  split; [exact Hti |]. split; [exact Hen |].
  rewrite Hinst. reflexivity.
Defined.

(** ** Properties of the query parameters *)

Module URLSearchParamsFacts.
Import URLSearchParams.

Lemma get_delete (name : string) (p : t) : get name (delete name p) = None.
Proof.
  induction p as [| [k v] q IH]; simpl; [reflexivity |].
  destruct (k =? name) eqn:E; simpl; [exact IH |].
  rewrite E. exact IH.
Qed.

Lemma get_set (name value : string) (p : t) :
  get name (set name value p) = Some value.
Proof.
  induction p as [| [k v] q IH]; simpl.
  - rewrite String.eqb_refl. reflexivity.
  - destruct (k =? name) eqn:E; simpl; rewrite E; [reflexivity | exact IH].
Qed.

Lemma getAll_delete (name : string) (p : t) : getAll name (delete name p) = [].
Proof.
  unfold getAll.
  induction p as [| [k v] q IH]; simpl; [reflexivity |].
  destruct (k =? name) eqn:E; simpl; [exact IH |].
  rewrite E. exact IH.
Qed.

Lemma getAll_set (name value : string) (p : t) :
  getAll name (set name value p) = [value].
Proof.
  induction p as [| [k v] q IH]; unfold getAll in *; simpl.
  - rewrite String.eqb_refl. reflexivity.
  - destruct (k =? name) eqn:E; simpl; rewrite E; simpl.
    + f_equal. apply getAll_delete.
    + exact IH.
Qed.

Lemma others_delete (name : string) (p : t) :
  others name (delete name p) = others name p.
Proof.
  unfold others.
  induction p as [| [k v] q IH]; simpl; [reflexivity |].
  destruct (k =? name) eqn:E; simpl; [exact IH |].
  rewrite E. simpl. f_equal. exact IH.
Qed.

Lemma others_set (name value : string) (p : t) :
  others name (set name value p) = others name p.
Proof.
  induction p as [| [k v] q IH]; unfold others in *; simpl.
  - rewrite String.eqb_refl. reflexivity.
  - destruct (k =? name) eqn:E; simpl; rewrite E; simpl.
    + apply others_delete.
    + f_equal. exact IH.
Qed.

(** What a name other than [name] is bound to is read off [others]. *)
Lemma getAll_others (name key : string) (p : t) :
  key <> name -> getAll key (others name p) = getAll key p.
Proof.
  intros Hk. unfold getAll, others.
  induction p as [| [k v] q IH]; simpl; [reflexivity |].
  destruct (String.eqb_spec k name) as [-> | Hn]; simpl.
  - destruct (String.eqb_spec name key) as [<- | _]; [contradiction | exact IH].
  - destruct (k =? key); simpl; [f_equal |]; exact IH.
Qed.

Lemma get_others (name key : string) (p : t) :
  key <> name -> get key (others name p) = get key p.
Proof.
  intros Hk. unfold others.
  induction p as [| [k v] q IH]; simpl; [reflexivity |].
  destruct (String.eqb_spec k name) as [-> | Hn]; simpl.
  - destruct (String.eqb_spec name key) as [<- | _]; [contradiction | exact IH].
  - destruct (k =? key); [reflexivity | exact IH].
Qed.

End URLSearchParamsFacts.

(** ** Properties of the tab-change handler *)

(** Every name [indexToTab] returns is one of the six tab names, hence a
    non-empty string other than "details". *)
Lemma indexToTab_name (i : Z) (a b : bool) (name : string) :
  indexToTab i a b = Some name -> In name tabNames.
Proof.
  intros H.
  destruct i as [| p | p]; simpl in H; try discriminate H.
  do 3 (try (destruct p as [p | p |]; simpl in H; try discriminate H));
    destruct a, b; try discriminate H; injection H as <-; simpl; tauto.
Qed.

Lemma tabNames_truthy (name : string) :
  In name tabNames -> JS.truthy (JS.Str name) = true /\ name <> "details".
Proof.
  simpl. intros [<- | [<- | [<- | [<- | [<- | [<- | []]]]]]];
    (split; [reflexivity | discriminate]).
Qed.

(** The handler sets [tab] to the name [indexToTab] returns and deletes it
    when there is none. *)
Lemma onChangeTab_eq (runId taskId : option string) (mapIndex : option Z)
  (group : option Task.t) (searchParams : URLSearchParams.t) (i : Z) :
  onChangeTab runId taskId mapIndex group searchParams i =
    match indexToTab i (isTaskInstance runId taskId mapIndex group)
                       (isMappedTaskSummary runId taskId mapIndex group) with
    | Some name => URLSearchParams.set TAB_PARAM name searchParams
    | None => URLSearchParams.delete TAB_PARAM searchParams
    end.
Proof.
  unfold onChangeTab, URLSearchParamsWrapper.
  destruct (indexToTab i _ _) as [name |] eqn:E; [| reflexivity].
  apply indexToTab_name, tabNames_truthy in E. destruct E as [-> _]. reflexivity.
Qed.

(** C6. After a change to index [i] the [tab] parameter holds exactly
    [indexToTab i isTaskInstance isMappedTaskSummary] when that is a name and
    is absent when it is unset, as for index 0; "details" is never written;
    the parameters under every other name are as before, in the same order. *)
Theorem onChangeTab_frame (runId taskId : option string) (mapIndex : option Z)
  (group : option Task.t) (searchParams : URLSearchParams.t) (i : Z) :
  let newTab := indexToTab i (isTaskInstance runId taskId mapIndex group)
                             (isMappedTaskSummary runId taskId mapIndex group) in
  let params := onChangeTab runId taskId mapIndex group searchParams i in
  URLSearchParams.get TAB_PARAM params = newTab /\
  URLSearchParams.getAll TAB_PARAM params =
    match newTab with Some name => [name] | None => [] end /\
  (i = 0 -> URLSearchParams.getAll TAB_PARAM params = []) /\
  URLSearchParams.get TAB_PARAM params <> Some "details" /\
  URLSearchParams.others TAB_PARAM params =
    URLSearchParams.others TAB_PARAM searchParams /\
  (forall key : string, key <> TAB_PARAM ->
     URLSearchParams.getAll key params = URLSearchParams.getAll key searchParams /\
     URLSearchParams.get key params = URLSearchParams.get key searchParams).
Proof.
  intros newTab params.
  assert (Hget : URLSearchParams.get TAB_PARAM params = newTab).
  { subst params newTab. rewrite onChangeTab_eq.
    destruct (indexToTab i _ _) as [name |].
    - apply URLSearchParamsFacts.get_set.
    - apply URLSearchParamsFacts.get_delete. }
  assert (Hall : URLSearchParams.getAll TAB_PARAM params =
                 match newTab with Some name => [name] | None => [] end).
  { subst params newTab. rewrite onChangeTab_eq.
    destruct (indexToTab i _ _) as [name |].
    - apply URLSearchParamsFacts.getAll_set.
    - apply URLSearchParamsFacts.getAll_delete. }
  assert (Hothers : URLSearchParams.others TAB_PARAM params =
                    URLSearchParams.others TAB_PARAM searchParams).
  { subst params. rewrite onChangeTab_eq.
    destruct (indexToTab i _ _) as [name |].
    - apply URLSearchParamsFacts.others_set.
    - apply URLSearchParamsFacts.others_delete. }
  repeat split.
  - exact Hget.
  - exact Hall.
  - intros ->. rewrite Hall. reflexivity.
  - rewrite Hget. subst newTab. intros E.
    apply indexToTab_name, tabNames_truthy in E. destruct E as [_ E]. apply E; reflexivity.
  - exact Hothers.
  - rewrite <- (URLSearchParamsFacts.getAll_others TAB_PARAM key params) by assumption.
    rewrite Hothers. apply URLSearchParamsFacts.getAll_others. assumption.
  - rewrite <- (URLSearchParamsFacts.get_others TAB_PARAM key params) by assumption.
    rewrite Hothers. apply URLSearchParamsFacts.get_others. assumption.
Qed.

(** ** Properties of the redirect effect *)

Lemma tabCount_eq (runId taskId : option string) (group : option Task.t) :
  tabCount runId taskId group =
    if selected runId && selected taskId && negb (isGroup group) then 5 else 4.
Proof.
  unfold tabCount. flags_unfold. by_selection runId taskId;
    destruct group as [[[kids |] m insts] |]; reflexivity.
Qed.

Lemma task_without_run (runId taskId : option string) :
  JS.truthy (! JS.ofString runId &&& JS.ofString taskId) =
    selected taskId && negb (selected runId).
Proof.
  flags_unfold. by_selection runId taskId; reflexivity.
Qed.

(** After [onChangeTab 1] the tab read back is Graph, after [onChangeTab 0]
    it is Details. *)
Lemma tabIndex_onChangeTab_1 (runId taskId : option string) (mapIndex : option Z)
  (group : option Task.t) (searchParams : URLSearchParams.t) :
  tabIndex (onChangeTab runId taskId mapIndex group searchParams 1) = 1.
Proof.
  rewrite onChangeTab_eq. unfold tabIndex, tab.
  change (indexToTab 1 _ _) with (Some "graph"). cbv iota.
  rewrite URLSearchParamsFacts.get_set. reflexivity.
Qed.

Lemma tabIndex_onChangeTab_0 (runId taskId : option string) (mapIndex : option Z)
  (group : option Task.t) (searchParams : URLSearchParams.t) :
  tabIndex (onChangeTab runId taskId mapIndex group searchParams 0) = 0.
Proof.
  rewrite onChangeTab_eq. unfold tabIndex, tab.
  change (indexToTab 0 _ _) with (@None string). cbv iota.
  rewrite URLSearchParamsFacts.get_delete. reflexivity.
Qed.

(** C5. The effect counts 5 tabs when a run and a task are selected and the
    node is not a group, else 4.  With 4 tabs and an index above 3 it calls
    [onChangeTab 0] when a task is selected without a run and
    [onChangeTab 1] otherwise, after which the tab read from the URL is that
    index; with 5 tabs or an index of at most 3 it makes no call and the
    query parameters stay as they are. *)
Theorem effect_redirect (runId taskId : option string) (mapIndex : option Z)
  (group : option Task.t) (searchParams : URLSearchParams.t) :
  tabCount runId taskId group =
    (if selected runId && selected taskId && negb (isGroup group) then 5 else 4) /\
  (forall index : Z,
     effectCall runId taskId group index =
       if (tabCount runId taskId group =? 4)%Z && (3 <? index)%Z
       then Some (if selected taskId && negb (selected runId) then 0 else 1)
       else None) /\
  (forall index : Z,
     tabCount runId taskId group = 5 \/ index <= 3 ->
     effectCall runId taskId group index = None) /\
  (forall target : Z,
     effectCall runId taskId group (tabIndex searchParams) = Some target ->
     useEffect runId taskId mapIndex group searchParams =
       onChangeTab runId taskId mapIndex group searchParams target /\
     tabIndex (useEffect runId taskId mapIndex group searchParams) = target) /\
  (effectCall runId taskId group (tabIndex searchParams) = None ->
   useEffect runId taskId mapIndex group searchParams = searchParams).
Proof.
  assert (Hcall : forall index : Z,
             effectCall runId taskId group index =
               if (tabCount runId taskId group =? 4)%Z && (3 <? index)%Z
               then Some (if selected taskId && negb (selected runId) then 0 else 1)
               else None).
  { intros index. unfold effectCall.
    rewrite task_without_run, Z.gtb_ltb.
    destruct ((tabCount runId taskId group =? 4)%Z && (3 <? index)%Z);
      [destruct (selected taskId && negb (selected runId)) |]; reflexivity. }
  split; [apply tabCount_eq |].
  split; [exact Hcall |].
  split; [| split].
  - intros index [H5 | Hle]; rewrite Hcall.
    + rewrite H5. reflexivity.
    + replace (3 <? index)%Z with false by (symmetry; apply Z.ltb_ge; lia).
      rewrite andb_false_r. reflexivity.
  - intros target Htarget. unfold useEffect. rewrite Htarget.
    split; [reflexivity |].
    rewrite Hcall in Htarget.
    destruct ((tabCount runId taskId group =? 4)%Z && (3 <? tabIndex searchParams)%Z);
      [| discriminate Htarget].
    destruct (selected taskId && negb (selected runId));
      injection Htarget as <-;
      [apply tabIndex_onChangeTab_0 | apply tabIndex_onChangeTab_1].
  - intros Hnone. unfold useEffect. rewrite Hnone. reflexivity.
Qed.

(** From a task instance on the XCom tab to the bare workflow: the effect
    moves to Graph. *)
Example effect_to_workflow :
  effectCall None None None (tabToIndex (Some "xcom")) = Some 1.
Proof. reflexivity. Qed.

(** A task selected without a run, with the URL still on index 5: the
    effect moves to Details. *)
Example effect_task_only :
  effectCall None (Some "task_a") (Some sampleMappedTask) 5 = Some 0.
Proof. reflexivity. Qed.

(** On a task instance nothing is redirected. *)
Example effect_task_instance :
  effectCall (Some "run_1") (Some "task_a") (Some sampleMappedTask) 5 = None.
Proof. reflexivity. Qed.

Example useEffect_sample :
  useEffect (Some "run_1") None None None sampleParams =
    [("dag_run_id", "run_1"); ("tab", "graph"); ("task_id", "task_a")].
Proof. reflexivity. Qed.

(** ** Properties of the state handed to the children *)

Lemma state_prop_eq (instance : option TaskInstance.t) :
  let instanceState :=
    match instance with
    | Some i => JS.ofString (TaskInstance.state i)
    | None => JS.Undefined
    end in
  (if JS.truthy (! instanceState ||| JS.Boolean (instanceState === JS.Str "none"))
   then JS.Ok None
   else match instance with
        | Some i => JS.Ok (TaskInstance.state i)
        | None => JS.TypeError
        end) =
  JS.Ok match instance with
        | Some i =>
            match TaskInstance.state i with
            | Some s => if (s =? "") || (s =? "none") then None else Some s
            | None => None
            end
        | None => None
        end.
Proof.
  destruct instance as [[r [s |] n] |]; simpl; try reflexivity.
  unfold JS.or, JS.not. simpl.
  destruct (s =? ""); simpl; [reflexivity |].
  destruct (s =? "none"); reflexivity.
Qed.

(** The expression on any value of [state], the empty string included:
    a truthiness test drops the empty string as it drops a missing state. *)
Lemma state_prop_normalised (runId : option string) (mapIndex : option Z)
  (group : option Task.t) (mappedTaskInstance : option TaskInstance.t) :
  let normalised :=
    match instance runId mapIndex group mappedTaskInstance with
    | Some i =>
        match TaskInstance.state i with
        | Some s => if (s =? "") || (s =? "none") then None else Some s
        | None => None
        end
    | None => None
    end in
  Logs_state runId mapIndex group mappedTaskInstance = JS.Ok normalised /\
  MarkInstanceAs_state runId mapIndex group mappedTaskInstance = JS.Ok normalised.
Proof.
  intros normalised. subst normalised.
  unfold Logs_state, MarkInstanceAs_state, instanceState, instanceDotState.
  split; apply state_prop_eq.
Qed.

(** C8. For every task instance of the declared type, the state handed to
    the Logs viewer and to the mark-as control is unset when the instance or
    its state is missing and when the state is "none", and is the state of
    the instance otherwise.  The expression never throws: the result is
    [JS.Ok], also when run, node or instance are absent. *)
Theorem state_prop_typed (runId : option string) (mapIndex : option Z)
  (group : option Task.t) (mappedTaskInstance : option TaskInstance.t) :
  instanceTyped (instance runId mapIndex group mappedTaskInstance) = true ->
  let passed :=
    match instance runId mapIndex group mappedTaskInstance with
    | Some i =>
        match TaskInstance.state i with
        | Some s => if s =? "none" then None else Some s
        | None => None
        end
    | None => None
    end in
  Logs_state runId mapIndex group mappedTaskInstance = JS.Ok passed /\
  MarkInstanceAs_state runId mapIndex group mappedTaskInstance = JS.Ok passed.
Proof.
  intros Htyped passed. subst passed.
  unfold Logs_state, MarkInstanceAs_state, instanceState, instanceDotState.
  rewrite state_prop_eq.
  destruct (instance runId mapIndex group mappedTaskInstance) as [i |];
    [| split; reflexivity].
  unfold instanceTyped, stateTyped in Htyped.
  destruct (TaskInstance.state i) as [s |]; [| split; reflexivity].
  apply negb_true_iff in Htyped. rewrite Htyped. split; reflexivity.
Qed.

Lemma state_prop_typed_witness :
  instanceTyped (instance (Some "run_1") None (Some sampleMappedTask) None) = true /\
  Logs_state (Some "run_1") None (Some sampleMappedTask) None =
    JS.Ok (Some "success") /\
  MarkInstanceAs_state (Some "run_1") None (Some sampleMappedTask) None =
    JS.Ok (Some "success").
Proof.
  split; [reflexivity |].
  exact (state_prop_typed (Some "run_1") None (Some sampleMappedTask) None eq_refl).
Defined.

(** The state "none" and a run without an instance both give an unset
    state. *)
Example state_prop_none :
  Logs_state (Some "run_1") None (Some noneStateTask) None = JS.Ok None /\
  MarkInstanceAs_state (Some "run_2") None (Some noneStateTask) None = JS.Ok None.
Proof. split; reflexivity. Qed.

(** Outside the declared type: an empty string as state would be handed
    on as unset too. *)
Example state_prop_blank :
  instance (Some "run_1") None (Some blankStateTask) None = Some blankStateInstance /\
  instanceTyped (Some blankStateInstance) = false /\
  Logs_state (Some "run_1") None (Some blankStateTask) None = JS.Ok None /\
  MarkInstanceAs_state (Some "run_1") None (Some blankStateTask) None = JS.Ok None.
Proof.
  repeat split.
Qed.

(** ** Properties of the render tree *)

(** The two tab-adding flags exclude each other, and one of them holds
    exactly when a run and a task are selected on a node that is not a
    group. *)
Lemma instance_or_summary (runId taskId : option string) (mapIndex : option Z)
  (group : option Task.t) :
  isTaskInstance runId taskId mapIndex group &&
    isMappedTaskSummary runId taskId mapIndex group = false /\
  isTaskInstance runId taskId mapIndex group ||
    isMappedTaskSummary runId taskId mapIndex group =
    selected runId && selected taskId && negb (isGroup group).
Proof.
  flags_unfold. by_selection runId taskId; by_node group;
    destruct mapIndex; split; reflexivity.
Qed.

Lemma tabListLength_eq (runId taskId : option string) (mapIndex : option Z)
  (group : option Task.t) :
  tabListLength runId taskId mapIndex group =
    if isTaskInstance runId taskId mapIndex group then 6
    else if isMappedTaskSummary runId taskId mapIndex group then 5
    else 4.
Proof.
  destruct (instance_or_summary runId taskId mapIndex group) as [Hex _].
  unfold tabListLength, tabList, render. simpl JS.truthy.
  destruct (isTaskInstance runId taskId mapIndex group),
           (isMappedTaskSummary runId taskId mapIndex group);
    try discriminate Hex; reflexivity.
Qed.

(** X1. The Details panel shows one content for every selection, chosen
    by which of run and task are selected alone: the workflow, the run, the
    task instance with its back control (a group included), or the task. *)
Theorem detailsPanel_content (runId taskId : option string) :
  detailsPanel runId taskId =
    match selected runId, selected taskId with
    | false, false => [Component.DagContent]
    | true, false => [Component.DagRunContent]
    | true, true => [Component.BackToTaskSummary; Component.TaskInstanceContent]
    | false, true => [Component.TaskDetails]
    end.
Proof.
  unfold detailsPanel, render. flags_unfold.
  by_selection runId taskId; reflexivity.
Qed.

(** X2. The header row shows the run controls when a run is selected
    without a task, the instance controls followed by the task filter when
    both are selected, and nothing when no run is selected; the Task
    Duration button is shown exactly with the instance controls. *)
Theorem header_controls (runId taskId : option string) :
  header runId taskId =
    match selected runId, selected taskId with
    | true, false => [Component.ClearRun; Component.MarkRunAs]
    | true, true =>
        [Component.ClearInstance; Component.MarkInstanceAs; Component.FilterTasks]
    | false, _ => []
    end /\
  taskDurationButton runId taskId = selected runId && selected taskId.
Proof.
  unfold header, taskDurationButton, render. flags_unfold.
  by_selection runId taskId; split; reflexivity.
Qed.

(** X3. The strip has six tabs on a task instance, five on a mapped-task
    summary and four otherwise; the effect's count is 4 exactly when the
    strip has four tabs, so its 5 stands for five or six. *)
Theorem tabList_length (runId taskId : option string) (mapIndex : option Z)
  (group : option Task.t) :
  tabListLength runId taskId mapIndex group =
    (if isTaskInstance runId taskId mapIndex group then 6
     else if isMappedTaskSummary runId taskId mapIndex group then 5
     else 4) /\
  (tabCount runId taskId group = 4 <-> tabListLength runId taskId mapIndex group = 4) /\
  (tabCount runId taskId group = 5 <-> 5 <= tabListLength runId taskId mapIndex group).
Proof.
  split; [apply tabListLength_eq |].
  rewrite tabListLength_eq, tabCount_eq.
  destruct (instance_or_summary runId taskId mapIndex group) as [_ <-].
  destruct (isTaskInstance runId taskId mapIndex group),
           (isMappedTaskSummary runId taskId mapIndex group); simpl; lia.
Qed.

(** X4. The panels line up with the tabs exactly when the view is not a
    task instance or the selected run is among the runs of the grid.  On a
    task instance whose run is not found, the Logs tab has no panel: the
    strip has six tabs and five panels, and position 4 holds the Logs tab
    but the XCom panel. *)
Theorem tabPanels_aligned (runId taskId : option string) (mapIndex : option Z)
  (group : option Task.t) (dagRuns : list DagRun.t) :
  (tabPanels runId taskId mapIndex group dagRuns = tabList runId taskId mapIndex group
   <-> isTaskInstance runId taskId mapIndex group = false \/ run runId dagRuns <> None) /\
  (isTaskInstance runId taskId mapIndex group = true ->
   run runId dagRuns = None ->
   tabList runId taskId mapIndex group =
     [Tab.Details; Tab.Graph; Tab.Gantt; Tab.Code; Tab.Logs; Tab.XCom] /\
   tabPanels runId taskId mapIndex group dagRuns =
     [Tab.Details; Tab.Graph; Tab.Gantt; Tab.Code; Tab.XCom]).
Proof.
  destruct (instance_or_summary runId taskId mapIndex group) as [Hex _].
  unfold tabPanels, tabList, render, defined, JS.and. simpl JS.truthy.
  destruct (isTaskInstance runId taskId mapIndex group),
           (isMappedTaskSummary runId taskId mapIndex group);
    try discriminate Hex;
    destruct (run runId dagRuns) as [r |]; simpl;
    intuition congruence.
Qed.

Example tabPanels_run_not_found :
  tabList (Some "run_2") (Some "task_a") (Some 0) (Some sampleMappedTask) =
    [Tab.Details; Tab.Graph; Tab.Gantt; Tab.Code; Tab.Logs; Tab.XCom] /\
  tabPanels (Some "run_2") (Some "task_a") (Some 0) (Some sampleMappedTask) [sampleRun] =
    [Tab.Details; Tab.Graph; Tab.Gantt; Tab.Code; Tab.XCom].
Proof. split; reflexivity. Qed.

(** ** Tab changes and the tab strip *)

(** What [indexToTab] returns a name for, and what it returns none for. *)
Lemma indexToTab_Some_inv (i : Z) (a b : bool) (name : string) :
  indexToTab i a b = Some name ->
  (i = 1 /\ name = "graph") \/
  (i = 2 /\ name = "gantt") \/
  (i = 3 /\ name = "code") \/
  (i = 4 /\ b = true /\ name = "mapped_tasks") \/
  (i = 4 /\ b = false /\ a = true /\ name = "logs") \/
  (i = 5 /\ a = true /\ name = "xcom").
Proof.
  intros H.
  destruct i as [| p | p]; simpl in H; try discriminate H.
  do 3 (try (destruct p as [p | p |]; simpl in H; try discriminate H));
    destruct a, b; try discriminate H; injection H as <-; tauto.
Qed.

Lemma indexToTab_None_inv (i : Z) (a b : bool) :
  indexToTab i a b = None ->
  i <> 1 /\ i <> 2 /\ i <> 3 /\
  (i = 4 -> a = false /\ b = false) /\
  (i = 5 -> a = false).
Proof.
  intros H.
  destruct i as [| p | p]; simpl in H;
    [ repeat split; intros; lia
    | | repeat split; intros; lia ].
  do 3 (try (destruct p as [p | p |]; simpl in H; try discriminate H));
    destruct a, b; try discriminate H;
    repeat split; intros; try reflexivity; lia.
Qed.

Lemma tabIndex_set (name : string) (searchParams : URLSearchParams.t) :
  In name tabNames ->
  tabIndex (URLSearchParams.set TAB_PARAM name searchParams) = tabToIndex (Some name).
Proof.
  intros Hname. unfold tabIndex, tab.
  rewrite URLSearchParamsFacts.get_set.
  apply tabNames_truthy in Hname. destruct Hname as [-> _]. reflexivity.
Qed.

Lemma tabIndex_delete (searchParams : URLSearchParams.t) :
  tabIndex (URLSearchParams.delete TAB_PARAM searchParams) = 0.
Proof.
  unfold tabIndex, tab. rewrite URLSearchParamsFacts.get_delete. reflexivity.
Qed.

Lemma tabIndex_after_change (runId taskId : option string) (mapIndex : option Z)
  (group : option Task.t) (searchParams : URLSearchParams.t) (i : Z) :
  tabIndex (onChangeTab runId taskId mapIndex group searchParams i) =
    if (0 <=? i)%Z &&
       (i <? (if isTaskInstance runId taskId mapIndex group then 6
              else if isMappedTaskSummary runId taskId mapIndex group then 5
              else 4))%Z
    then i else 0.
Proof.
  rewrite onChangeTab_eq.
  destruct (instance_or_summary runId taskId mapIndex group) as [Hex _].
  destruct (indexToTab i _ _) as [name |] eqn:E.
  - rewrite tabIndex_set by (eapply indexToTab_name; exact E).
    apply indexToTab_Some_inv in E.
    destruct E as [[-> ->] | [[-> ->] | [[-> ->] | [(-> & Hb & ->) |
                  [(-> & Hb & Ha & ->) | (-> & Ha & ->)]]]]];
      try rewrite Ha in *; try rewrite Hb in *; try discriminate Hex;
      destruct (isTaskInstance runId taskId mapIndex group),
               (isMappedTaskSummary runId taskId mapIndex group);
      try discriminate; reflexivity.
  - rewrite tabIndex_delete.
    apply indexToTab_None_inv in E. destruct E as (H1 & H2 & H3 & H4 & H5).
    destruct (Z.leb_spec 0 i) as [Hlo | Hlo]; simpl; [| reflexivity].
    destruct (Z.ltb_spec i
                (if isTaskInstance runId taskId mapIndex group then 6
                 else if isMappedTaskSummary runId taskId mapIndex group then 5
                 else 4)) as [Hhi | Hhi]; [| reflexivity].
    destruct (Z.eq_dec i 4) as [E4 | N4].
    { destruct (H4 E4) as [Ha Hb]. rewrite Ha, Hb in Hhi. lia. }
    destruct (Z.eq_dec i 5) as [E5 | N5].
    { rewrite (H5 E5) in Hhi.
      destruct (isMappedTaskSummary runId taskId mapIndex group); lia. }
    destruct (isTaskInstance runId taskId mapIndex group),
             (isMappedTaskSummary runId taskId mapIndex group); lia.
Qed.

(** X5. After a change to index [i], the tab read back from the URL is
    [i] when [i] is a position of the tab strip, and 0 (Details) for every
    other index. *)
Theorem tabIndex_onChangeTab (runId taskId : option string) (mapIndex : option Z)
  (group : option Task.t) (searchParams : URLSearchParams.t) (i : Z) :
  tabIndex (onChangeTab runId taskId mapIndex group searchParams i) =
    if (0 <=? i)%Z && (i <? tabListLength runId taskId mapIndex group)%Z
    then i else 0.
Proof.
  rewrite tabListLength_eq. apply tabIndex_after_change.
Qed.

(** ** The effect and the tab strip *)

Lemma tabCount_flags (runId taskId : option string) (mapIndex : option Z)
  (group : option Task.t) :
  tabCount runId taskId group =
    if isTaskInstance runId taskId mapIndex group ||
       isMappedTaskSummary runId taskId mapIndex group
    then 5 else 4.
Proof.
  rewrite tabCount_eq.
  destruct (instance_or_summary runId taskId mapIndex group) as [_ ->].
  reflexivity.
Qed.

Lemma effectCall_Some_inv (runId taskId : option string) (group : option Task.t)
  (index target : Z) :
  effectCall runId taskId group index = Some target ->
  (target = 0 \/ target = 1) /\ tabCount runId taskId group = 4 /\ 3 < index.
Proof.
  unfold effectCall.
  destruct (Z.eqb_spec (tabCount runId taskId group) 4) as [H4 | H4]; simpl;
    [| discriminate].
  destruct (Z.gtb_spec index 3) as [Hgt | Hle]; [| discriminate].
  destruct (JS.truthy _); intros H; injection H as <-;
    (split; [tauto | split; [exact H4 | lia]]).
Qed.

Lemma effectCall_low (runId taskId : option string) (group : option Task.t)
  (index : Z) :
  index <= 3 -> effectCall runId taskId group index = None.
Proof.
  intros Hle. unfold effectCall.
  destruct (Z.gtb_spec index 3) as [Hgt | _]; [lia |].
  rewrite andb_false_r. reflexivity.
Qed.

Lemma effectCall_None_inv (runId taskId : option string) (group : option Task.t)
  (index : Z) :
  effectCall runId taskId group index = None ->
  tabCount runId taskId group <> 4 \/ index <= 3.
Proof.
  unfold effectCall.
  destruct (Z.eqb_spec (tabCount runId taskId group) 4) as [H4 | H4]; simpl;
    [| intros _; left; exact H4].
  destruct (Z.gtb_spec index 3) as [Hgt | Hle]; [| intros _; right; exact Hle].
  destruct (JS.truthy _); discriminate.
Qed.

Lemma tabIndex_useEffect_target (runId taskId : option string)
  (mapIndex : option Z) (group : option Task.t)
  (searchParams : URLSearchParams.t) (target : Z) :
  effectCall runId taskId group (tabIndex searchParams) = Some target ->
  useEffect runId taskId mapIndex group searchParams =
    onChangeTab runId taskId mapIndex group searchParams target /\
  tabIndex (onChangeTab runId taskId mapIndex group searchParams target) = target /\
  (target = 0 \/ target = 1).
Proof.
  intros H. unfold useEffect. rewrite H. split; [reflexivity |].
  apply effectCall_Some_inv in H. destruct H as [[-> | ->] _].
  - split; [apply tabIndex_onChangeTab_0 | left; reflexivity].
  - split; [apply tabIndex_onChangeTab_1 | right; reflexivity].
Qed.

(** X6. After the effect the current index is a position of the tab
    strip, with one exception that the effect leaves alone: on a mapped-task
    summary with the URL on index 5 ([tab=xcom]) the strip has five tabs,
    positions 0 to 4, and the index stays 5. *)
Theorem useEffect_visible (runId taskId : option string) (mapIndex : option Z)
  (group : option Task.t) (searchParams : URLSearchParams.t) :
  (isMappedTaskSummary runId taskId mapIndex group = false \/
   tabIndex searchParams <> 5 ->
   0 <= tabIndex (useEffect runId taskId mapIndex group searchParams)
     < tabListLength runId taskId mapIndex group) /\
  (isMappedTaskSummary runId taskId mapIndex group = true ->
   tabIndex searchParams = 5 ->
   useEffect runId taskId mapIndex group searchParams = searchParams /\
   tabListLength runId taskId mapIndex group = 5).
Proof.
  pose proof (tabToIndex_range (tab searchParams)) as Hrange.
  fold (tabIndex searchParams) in Hrange.
  pose proof (tabCount_flags runId taskId mapIndex group) as Hcount.
  destruct (instance_or_summary runId taskId mapIndex group) as [Hex _].
  rewrite tabListLength_eq.
  destruct (effectCall runId taskId group (tabIndex searchParams)) as [target |] eqn:E.
  - destruct (tabIndex_useEffect_target _ _ mapIndex _ _ _ E) as (-> & -> & Ht).
    apply effectCall_Some_inv in E. destruct E as (_ & H4 & _).
    rewrite H4 in Hcount.
    destruct (isTaskInstance runId taskId mapIndex group),
             (isMappedTaskSummary runId taskId mapIndex group);
      simpl in Hcount; try discriminate Hcount.
    split; [intros _; lia | intros H; discriminate H].
  - assert (Hsame : useEffect runId taskId mapIndex group searchParams = searchParams)
      by (unfold useEffect; rewrite E; reflexivity).
    rewrite Hsame.
    apply effectCall_None_inv in E.
    destruct (isTaskInstance runId taskId mapIndex group),
             (isMappedTaskSummary runId taskId mapIndex group);
      simpl in Hcount; try discriminate Hex;
      (split; [intros [H | H]; try discriminate H; lia
              | intros H; try discriminate H; intros _; split; reflexivity]).
Qed.

Example useEffect_summary_on_xcom :
  useEffect (Some "run_1") (Some "task_a") None (Some sampleMappedTask)
    [("tab", "xcom")] = [("tab", "xcom")] /\
  tabIndex [("tab", "xcom")] = 5 /\
  tabList (Some "run_1") (Some "task_a") None (Some sampleMappedTask) =
    [Tab.Details; Tab.Graph; Tab.Gantt; Tab.Code; Tab.MappedTasks].
Proof. repeat split. Qed.

(** X7. The effect settles in one run and touches only [tab]: run on its
    own result it changes nothing, and the parameters under every other
    name are as before, in order. *)
Theorem useEffect_idempotent (runId taskId : option string) (mapIndex : option Z)
  (group : option Task.t) (searchParams : URLSearchParams.t) :
  useEffect runId taskId mapIndex group
    (useEffect runId taskId mapIndex group searchParams) =
    useEffect runId taskId mapIndex group searchParams /\
  URLSearchParams.others TAB_PARAM
    (useEffect runId taskId mapIndex group searchParams) =
    URLSearchParams.others TAB_PARAM searchParams.
Proof.
  destruct (effectCall runId taskId group (tabIndex searchParams)) as [target |] eqn:E.
  - destruct (tabIndex_useEffect_target _ _ mapIndex _ _ _ E) as (Heq & Hidx & Ht).
    rewrite Heq. split.
    + unfold useEffect at 1. rewrite Hidx.
      rewrite effectCall_low by (destruct Ht; subst target; lia). reflexivity.
    + rewrite onChangeTab_eq.
      destruct (indexToTab target _ _).
      * apply URLSearchParamsFacts.others_set.
      * apply URLSearchParamsFacts.others_delete.
  - unfold useEffect. rewrite E. rewrite E. split; reflexivity.
Qed.

(** X8. A tab change is never followed by a redirect: whatever index the
    handler is called with, the effect leaves its result as it is. *)
Theorem useEffect_after_onChangeTab (runId taskId : option string)
  (mapIndex : option Z) (group : option Task.t)
  (searchParams : URLSearchParams.t) (i : Z) :
  useEffect runId taskId mapIndex group
    (onChangeTab runId taskId mapIndex group searchParams i) =
    onChangeTab runId taskId mapIndex group searchParams i.
Proof.
  unfold useEffect.
  destruct (effectCall runId taskId group
              (tabIndex (onChangeTab runId taskId mapIndex group searchParams i)))
    as [target |] eqn:E; [| reflexivity].
  exfalso.
  apply effectCall_Some_inv in E. destruct E as (_ & H4 & Hgt).
  rewrite (tabCount_flags runId taskId mapIndex group) in H4.
  rewrite tabIndex_after_change in Hgt.
  destruct (isTaskInstance runId taskId mapIndex group),
           (isMappedTaskSummary runId taskId mapIndex group);
    simpl in H4; try discriminate H4.
  destruct (Z.leb_spec 0 i), (Z.ltb_spec i 4); simpl in Hgt; lia.
Qed.

(** ** Successive tab changes *)

Module URLSearchParamsLaws.
Import URLSearchParams.

Lemma delete_delete (name : string) (p : t) :
  delete name (delete name p) = delete name p.
Proof.
  induction p as [| [k v] q IH]; simpl; [reflexivity |].
  destruct (k =? name) eqn:E; simpl; [exact IH |].
  rewrite E. f_equal. exact IH.
Qed.

Lemma delete_set (name value : string) (p : t) :
  delete name (set name value p) = delete name p.
Proof.
  induction p as [| [k v] q IH]; simpl.
  - rewrite String.eqb_refl. reflexivity.
  - destruct (k =? name) eqn:E; simpl; rewrite E.
    + apply delete_delete.
    + f_equal. exact IH.
Qed.

Lemma set_set (name v1 v2 : string) (p : t) :
  set name v2 (set name v1 p) = set name v2 p.
Proof.
  induction p as [| [k v] q IH]; simpl.
  - rewrite String.eqb_refl. reflexivity.
  - destruct (k =? name) eqn:E; simpl; rewrite E.
    + f_equal. apply delete_delete.
    + f_equal. exact IH.
Qed.

Lemma get_set_delete (name value : string) (p : t) :
  get name (set name value (delete name p)) = get name (set name value p).
Proof.
  rewrite !URLSearchParamsFacts.get_set. reflexivity.
Qed.

Lemma others_set_delete (name value : string) (p : t) :
  others name (set name value (delete name p)) = others name (set name value p).
Proof.
  rewrite !URLSearchParamsFacts.others_set.
  apply URLSearchParamsFacts.others_delete.
Qed.

End URLSearchParamsLaws.

(** X9. Of two tab changes in a row only the last counts: the [tab]
    parameter and the parameters under every other name are those of the
    last change alone.  The whole list is that of the last change alone when
    the first change wrote a name or the last one wrote none, in particular
    when the same index is chosen twice. *)
Theorem onChangeTab_twice (runId taskId : option string) (mapIndex : option Z)
  (group : option Task.t) (searchParams : URLSearchParams.t) (i j : Z) :
  let change := onChangeTab runId taskId mapIndex group in
  let name k := indexToTab k (isTaskInstance runId taskId mapIndex group)
                             (isMappedTaskSummary runId taskId mapIndex group) in
  URLSearchParams.get TAB_PARAM (change (change searchParams i) j) =
    URLSearchParams.get TAB_PARAM (change searchParams j) /\
  URLSearchParams.others TAB_PARAM (change (change searchParams i) j) =
    URLSearchParams.others TAB_PARAM (change searchParams j) /\
  (name i <> None \/ name j = None ->
   change (change searchParams i) j = change searchParams j) /\
  change (change searchParams i) i = change searchParams i.
Proof.
  intros change name. subst change name. cbv beta.
  rewrite !onChangeTab_eq.
  destruct (indexToTab i _ _) as [ni |], (indexToTab j _ _) as [nj |];
    repeat split.
  - rewrite !URLSearchParamsFacts.get_set. reflexivity.
  - rewrite !URLSearchParamsFacts.others_set. reflexivity.
  - intros _. apply URLSearchParamsLaws.set_set.
  - apply URLSearchParamsLaws.set_set.
  - rewrite !URLSearchParamsFacts.get_delete. reflexivity.
  - rewrite !URLSearchParamsFacts.others_delete.
    apply URLSearchParamsFacts.others_set.
  - intros _. apply URLSearchParamsLaws.delete_set.
  - apply URLSearchParamsLaws.set_set.
  - apply URLSearchParamsLaws.get_set_delete.
  - apply URLSearchParamsLaws.others_set_delete.
  - intros [H | H]; [contradiction H; reflexivity | discriminate H].
  - apply URLSearchParamsLaws.delete_delete.
  - rewrite URLSearchParamsLaws.delete_delete. reflexivity.
  - rewrite URLSearchParamsLaws.delete_delete. reflexivity.
  - intros _. apply URLSearchParamsLaws.delete_delete.
  - apply URLSearchParamsLaws.delete_delete.
Qed.

(** The order of the list may differ when the first change removed [tab]
    and the last one writes it. *)
Example onChangeTab_twice_order :
  onChangeTab None None None None
    (onChangeTab None None None None [("tab", "code"); ("root", "a")] 0) 1 =
    [("root", "a"); ("tab", "graph")] /\
  onChangeTab None None None None [("tab", "code"); ("root", "a")] 1 =
    [("tab", "graph"); ("root", "a")].
Proof. split; reflexivity. Qed.

(** ** The run and the instance shown *)

Lemma strictEq_Str_ofString (s : string) (id : option string) :
  (JS.Str s === JS.ofString id) = true -> id = Some s.
Proof.
  destruct id as [r |]; simpl; [| discriminate].
  intros H. apply String.eqb_eq in H. subst r. reflexivity.
Qed.

(** X10. When the map index is unset or not above -1, the instance whose
    state and try number are shown is an instance of the selected run taken
    from the node's list, and the run whose execution date is shown is a run
    of the grid with the same run id. *)
Theorem shown_instance_of_run (runId : option string) (mapIndex : option Z)
  (group : option Task.t) (mappedTaskInstance : option TaskInstance.t)
  (dagRuns : list DagRun.t) (r : DagRun.t) (i : TaskInstance.t) :
  mapIndexGt mapIndex (-1) = false ->
  run runId dagRuns = Some r ->
  instance runId mapIndex group mappedTaskInstance = Some i ->
  runId = Some (DagRun.runId r) /\
  TaskInstance.runId i = DagRun.runId r /\
  In r dagRuns /\
  exists g : Task.t, group = Some g /\ In i (Task.instances g).
Proof.
  intros Hgt Hrun Hinst.
  unfold run in Hrun. apply find_some in Hrun. destruct Hrun as [Hin Hr].
  apply strictEq_Str_ofString in Hr.
  unfold instance in Hinst. rewrite Hgt, andb_false_r in Hinst.
  unfold groupInstance in Hinst.
  destruct group as [g |]; [| discriminate Hinst].
  apply find_some in Hinst. destruct Hinst as [Hing Hi].
  apply strictEq_Str_ofString in Hi.
  split; [exact Hr |].
  split; [congruence |].
  split; [exact Hin |].
  exists g. split; [reflexivity | exact Hing].
Qed.

Lemma shown_instance_of_run_witness :
  Some "run_1" = Some (DagRun.runId sampleRun) /\
  TaskInstance.runId sampleInstance = DagRun.runId sampleRun /\
  In sampleRun [sampleRun] /\
  exists g : Task.t,
    Some sampleMappedTask = Some g /\ In sampleInstance (Task.instances g).
Proof.
  exact (shown_instance_of_run (Some "run_1") (Some (-1)) (Some sampleMappedTask)
           (Some sampleFetched) [sampleRun] sampleRun sampleInstance
           eq_refl eq_refl eq_refl).
Defined.

(** X11. A task id that names no node of the grid, with a run selected, is
    shown as a task instance: the strip carries the Logs and XCom tabs, and
    unless a map index above -1 is chosen there is no instance, so the state
    handed to the Logs viewer and to the mark-as control and the try number
    are unset, without an error. *)
Theorem unknown_task (runId taskId : option string) (mapIndex : option Z)
  (mappedTaskInstance : option TaskInstance.t) :
  selected runId = true ->
  selected taskId = true ->
  isTaskInstance runId taskId mapIndex None = true /\
  isMappedTaskSummary runId taskId mapIndex None = false /\
  tabList runId taskId mapIndex None =
    [Tab.Details; Tab.Graph; Tab.Gantt; Tab.Code; Tab.Logs; Tab.XCom] /\
  (mapIndexGt mapIndex (-1) = false ->
   instance runId mapIndex None mappedTaskInstance = None /\
   Logs_state runId mapIndex None mappedTaskInstance = JS.Ok None /\
   MarkInstanceAs_state runId mapIndex None mappedTaskInstance = JS.Ok None /\
   Logs_tryNumber runId mapIndex None mappedTaskInstance = None).
Proof.
  intros Hr Ht.
  assert (Hti : isTaskInstance runId taskId mapIndex None = true).
  { revert Hr Ht. flags_unfold. by_selection runId taskId;
      intros Hr Ht; try discriminate; destruct mapIndex; reflexivity. }
  assert (Hmts : isMappedTaskSummary runId taskId mapIndex None = false).
  { revert Hr Ht. flags_unfold. by_selection runId taskId;
      intros Hr Ht; try discriminate; reflexivity. }
  split; [exact Hti |]. split; [exact Hmts |]. split.
  - unfold tabList, render. rewrite Hti, Hmts. reflexivity.
  - intros Hgt.
    assert (Hnone : instance runId mapIndex None mappedTaskInstance = None).
    { unfold instance. rewrite Hgt, andb_false_r. reflexivity. }
    unfold Logs_state, MarkInstanceAs_state, Logs_tryNumber, instanceTryNumber,
      instanceState, instanceDotState.
    rewrite Hnone. repeat split.
Qed.

Lemma unknown_task_witness :
  isTaskInstance (Some "run_1") (Some "no_such_task") None None = true /\
  tabList (Some "run_1") (Some "no_such_task") None None =
    [Tab.Details; Tab.Graph; Tab.Gantt; Tab.Code; Tab.Logs; Tab.XCom] /\
  Logs_state (Some "run_1") None None (Some sampleFetched) = JS.Ok None.
Proof.
  destruct (unknown_task (Some "run_1") (Some "no_such_task") None
              (Some sampleFetched) eq_refl eq_refl)
    as (Hti & _ & Htabs & Hrest).
  destruct (Hrest eq_refl) as (_ & Hlogs & _).
  split; [exact Hti |]. split; [exact Htabs | exact Hlogs].
Defined.

(** ** Tab names and tab positions *)

(** X12. The strip and [indexToTab] agree: for every position of the
    strip, a change to it writes the URL name of the tab at that position
    (none for Details); and the URL name of every tab of the strip selects
    that tab when it is read back. *)
Theorem tabList_names (runId taskId : option string) (mapIndex : option Z)
  (group : option Task.t) :
  map urlName (tabList runId taskId mapIndex group) =
    map (fun position : nat =>
           indexToTab (Z.of_nat position)
             (isTaskInstance runId taskId mapIndex group)
             (isMappedTaskSummary runId taskId mapIndex group))
        (seq 0 (length (tabList runId taskId mapIndex group))) /\
  Forall (fun slot : Tab.t =>
            slot = Tab.Details \/
            selectedTab runId taskId mapIndex group (urlName slot) = Some slot)
         (tabList runId taskId mapIndex group).
Proof.
  destruct (instance_or_summary runId taskId mapIndex group) as [Hex _].
  unfold selectedTab, tabList, render. simpl JS.truthy.
  destruct (isTaskInstance runId taskId mapIndex group),
           (isMappedTaskSummary runId taskId mapIndex group);
    try discriminate Hex; simpl; (split; [reflexivity |]);
    repeat (constructor; [first [left; reflexivity | right; reflexivity] |]);
    constructor.
Qed.

(** X13. Position 4 is shared: "logs" and "mapped_tasks" both select the
    one tab the strip has there, Logs on a task instance and Mapped Tasks on
    a mapped-task summary, and no tab otherwise; "xcom" selects the XCom tab
    on a task instance only. *)
Theorem selectedTab_shared (runId taskId : option string) (mapIndex : option Z)
  (group : option Task.t) :
  let at4 :=
    if isTaskInstance runId taskId mapIndex group then Some Tab.Logs
    else if isMappedTaskSummary runId taskId mapIndex group then Some Tab.MappedTasks
    else None in
  selectedTab runId taskId mapIndex group (Some "logs") = at4 /\
  selectedTab runId taskId mapIndex group (Some "mapped_tasks") = at4 /\
  selectedTab runId taskId mapIndex group (Some "xcom") =
    (if isTaskInstance runId taskId mapIndex group then Some Tab.XCom else None).
Proof.
  destruct (instance_or_summary runId taskId mapIndex group) as [Hex _].
  unfold selectedTab, tabList, render. simpl JS.truthy.
  destruct (isTaskInstance runId taskId mapIndex group),
           (isMappedTaskSummary runId taskId mapIndex group);
    try discriminate Hex; repeat split.
Qed.
